(** * The login endpoint of [apps/api]: serializer and view

    The repository consists of [apps/api/serializers.py] (the declarative
    [LoginSerializer]) and [apps/api/views.py] ([LoginAPIView.post]).  Both
    are thin layers over Django REST framework, so the development has
    three layers:

    - [Py]: the handful of Python built-ins the code path relies on
      ([str.strip], [bool] of a container, [type(x).__name__]);
    - [rest_framework]: the behaviour of [CharField], [EmailField] and
      [Serializer.is_valid] that the two declarations of the serializer
      inherit;
    - [serializers] and [views]: the source files themselves. *)

From Stdlib Require Import ZArith String Ascii List Floats.
From stdpp Require Import gmap strings pretty.

Set Warnings "-register-all".
Local Open Scope string_scope.

(** ** Python built-ins *)

Module Py.

(** A [str] is a sequence of code points; this development keeps the
    code points below 256, one per [ascii]. *)
Definition ord (c : ascii) : N := N_of_ascii c.

(** [str.isspace] on one code point below 256: TAB..CR, FS..US, SPACE,
    NEL and NBSP. *)
Definition isspace (c : ascii) : bool :=
  let n := ord c in
  ((9 <=? n) && (n <=? 13) || (28 <=? n) && (n <=? 32)
   || (n =? 133) || (n =? 160))%N.

Fixpoint lstrip (s : string) : string :=
  match s with
  | String c t => if isspace c then lstrip t else s
  | EmptyString => EmptyString
  end.

Definition rstrip (s : string) : string :=
  String.rev (lstrip (String.rev s)).

(** [s.strip()]: whitespace removed at both ends. *)
Definition strip (s : string) : string := rstrip (lstrip s).

(** ["\x00" in s] *)
Fixpoint contains_nul (s : string) : bool :=
  match s with
  | String c t => (ord c =? 0)%N || contains_nul t
  | EmptyString => false
  end.

(** [needle in haystack] for two strings. *)
Fixpoint contains (needle haystack : string) : bool :=
  String.prefix needle haystack ||
  match haystack with
  | String _ t => contains needle t
  | EmptyString => false
  end.

(** What [request.data] can hold once a parser has run: the values
    [json.loads] produces.  A form post yields a mapping whose values
    are all [JStr]. *)
Inductive json : Type :=
  | JNull
  | JBool (b : bool)
  | JInt (z : Z)
  | JFloat (f : float)
  | JStr (s : string)
  | JList (l : list json)
  | JObj (m : gmap string json).

(** [type(x).__name__] *)
Definition type_name (x : json) : string :=
  match x with
  | JNull => "NoneType"
  | JBool _ => "bool"
  | JInt _ => "int"
  | JFloat _ => "float"
  | JStr _ => "str"
  | JList _ => "list"
  | JObj _ => "dict"
  end.

End Py.
Import Py.

(** ** What the surrounding platform provides

    The e-mail syntax check is Django's [EmailValidator], [str] of a float
    is CPython's shortest-repr printer, and [authenticate] / [login] belong
    to [django.contrib.auth].  None of them is code of this repository, so
    they are taken as an interface; every theorem below holds for each
    implementation of it.  The two collaborators are taken to return: an
    exception raised inside them passes through the handler uncaught and
    is left out. *)

Class Platform : Type := {
  (** the identity object [authenticate] hands back *)
  Principal : Type;
  (** everything outside the handler that the two collaborators may read
      or write: user store, [request.session], [request.user] *)
  World : Type;
  (** [django.core.validators.EmailValidator]: [true] when it accepts *)
  EmailValidator : string -> bool;
  (** [str(x)] for a [float] *)
  float_str : float -> string;
  (** [authenticate(request, username=, password=)]: a user or [None] *)
  authenticate : World -> string -> string -> World * option Principal;
  (** [login(request, user)] *)
  login : World -> Principal -> World
}.

(** ** Django REST framework: the parts the serializer inherits *)

Module rest_framework.

Module status.
Definition HTTP_200_OK : Z := 200.
Definition HTTP_400_BAD_REQUEST : Z := 400.
Definition HTTP_401_UNAUTHORIZED : Z := 401.
End status.

(** [exceptions.ErrorDetail]: a message carrying a machine code. *)
Record ErrorDetail : Type := { message : string; code : string }.

(** [ValidationError.detail] is a list (one field) or a dict
    (a serializer). *)
Inductive detail : Type :=
  | DetailList (l : list ErrorDetail)
  | DetailDict (m : gmap string (list ErrorDetail)).

(** [bool(x)] of a list or dict. *)
Definition truthy (d : detail) : bool :=
  match d with
  | DetailList l => negb (Nat.eqb (length l) 0)
  | DetailDict m => negb (Nat.eqb (size m) 0)
  end.

(** How a field's [run_validation] can end: a value, a raised
    [ValidationError], or a raised [SkipField]. *)
Inductive outcome (A : Type) : Type :=
  | Ok (a : A)
  | ValidationError (d : list ErrorDetail)
  | SkipField.
Arguments Ok {A} a.
Arguments ValidationError {A} d.
Arguments SkipField {A}.

(** [default_error_messages], merged along the class hierarchy
    [Field] < [CharField] < [EmailField]. *)
Definition Field_messages (key : string) : string :=
  if String.eqb key "required" then "This field is required."
  else if String.eqb key "null" then "This field may not be null."
  else EmptyString.

Definition CharField_messages (key : string) : string :=
  if String.eqb key "invalid" then "Not a valid string."
  else if String.eqb key "blank" then "This field may not be blank."
  else Field_messages key.

Definition EmailField_messages (key : string) : string :=
  if String.eqb key "invalid" then "Enter a valid email address."
  else CharField_messages key.

(** A character field after [__init__].  [allow_null] and [read_only]
    stay at their default [False] in both declarations of the
    repository and are not carried. *)
Record Field : Type := {
  required : bool;
  allow_blank : bool;
  trim_whitespace : bool;
  write_only : bool;
  error_messages : string -> string;
  validators : list (string -> list ErrorDetail)
}.

(** [self.fail(key)] *)
Definition fail {A} (f : Field) (key : string) : outcome A :=
  ValidationError [ {| message := error_messages f key; code := key |} ].

(** [django.core.validators.ProhibitNullCharactersValidator] *)
Definition ProhibitNullCharactersValidator (value : string)
  : list ErrorDetail :=
  if contains_nul value
  then [ {| message := "Null characters are not allowed.";
            code := "null_characters_not_allowed" |} ]
  else [].

Section fields.
Context `{Platform}.

(** [EmailValidator(message=error_messages['invalid'])]; Django raises
    with code ["invalid"]. *)
Definition email_validator (msg : string) (value : string)
  : list ErrorDetail :=
  if EmailValidator value then []
  else [ {| message := msg; code := "invalid" |} ].

(** [serializers.CharField(write_only=...)], every other keyword at its
    default. *)
Definition CharField (write_only : bool) : Field :=
  {| required := true; allow_blank := false; trim_whitespace := true;
     write_only := write_only;
     error_messages := CharField_messages;
     validators := [ProhibitNullCharactersValidator] |}.

(** [serializers.EmailField()]: a [CharField] whose ["invalid"]
    message is replaced and whose validators end with the e-mail
    check. *)
Definition EmailField : Field :=
  {| required := true; allow_blank := false; trim_whitespace := true;
     write_only := false;
     error_messages := EmailField_messages;
     validators := [ProhibitNullCharactersValidator;
                    email_validator (EmailField_messages "invalid")] |}.

(** The test that opens [CharField.run_validation]:
    [data == '' or (trim_whitespace and str(data).strip() == '')].
    [str] of an int, a bool, a list, a dict, [None] or the [empty]
    marker has a non-space character, so only the two cases below can
    answer [True]. *)
Definition is_blank (f : Field) (data : option json) : bool :=
  match data with
  | Some (JStr s) =>
      String.eqb s EmptyString || (trim_whitespace f && String.eqb (strip s) EmptyString)
  | Some (JFloat x) =>
      trim_whitespace f && String.eqb (strip (float_str x)) EmptyString
  | _ => false
  end.

(** [CharField.to_internal_value]: strings and plain numbers are
    accepted, booleans and everything else are not. *)
Definition to_internal_value (f : Field) (data : json) : outcome string :=
  let coerced :=
    match data with
    | JStr s => Some s
    | JInt z => Some (pretty z)
    | JFloat x => Some (float_str x)
    | JBool _ | JNull | JList _ | JObj _ => None
    end in
  match coerced with
  | None => fail f "invalid"
  | Some value =>
      Ok (if trim_whitespace f then strip value else value)
  end.

(** [Field.run_validators]: every validator runs, the messages are
    collected in order. *)
Definition run_validators (f : Field) (value : string) : outcome string :=
  match concat (map (fun v => v value) (validators f)) with
  | [] => Ok value
  | errors => ValidationError errors
  end.

(** [Field.run_validation], reached through [super()]:
    [validate_empty_values], [to_internal_value], [run_validators]. *)
Definition Field_run_validation (f : Field) (data : option json)
  : outcome string :=
  match data with
  | None => if required f then fail f "required" else SkipField
  | Some JNull => fail f "null"
  | Some data =>
      match to_internal_value f data with
      | Ok value => run_validators f value
      | other => other
      end
  end.

(** [CharField.run_validation] *)
Definition run_validation (f : Field) (data : option json)
  : outcome string :=
  if is_blank f data then
    if allow_blank f then Ok EmptyString else fail f "blank"
  else Field_run_validation f data.

End fields.

(** *** [serializers.Serializer] *)

Definition NON_FIELD_ERRORS_KEY : string := "non_field_errors".

(** A serializer class: the declared fields in declaration order and
    the [validate] hook, which receives the dict of field values. *)
Record Serializer : Type := {
  _declared_fields : list (string * Field);
  validate : gmap string string -> gmap string string
}.

(** A serializer object once [is_valid()] has run. *)
Record BoundSerializer : Type := {
  initial_data : json;
  _validated_data : gmap string string;
  _errors : detail
}.

Section serializer.
Context `{Platform}.

(** The loop of [Serializer.to_internal_value]: each writable field
    reads its entry with [dictionary.get(field_name, empty)] and puts
    its value in [ret] or its messages in [errors]. *)
Definition validate_fields (fields : list (string * Field))
    (data : gmap string json)
  : gmap string string * gmap string (list ErrorDetail) :=
  fold_left
    (fun acc field =>
       let '(ret, errors) := acc in
       let '(field_name, f) := field in
       match run_validation f (data !! field_name) with
       | Ok validated_value => (<[field_name := validated_value]> ret, errors)
       | ValidationError d => (ret, <[field_name := d]> errors)
       | SkipField => (ret, errors)
       end)
    fields (∅, ∅).

Definition Serializer_to_internal_value (s : Serializer) (data : json)
  : detail + gmap string string :=
  match data with
  | JObj m =>
      let '(ret, errors) := validate_fields (_declared_fields s) m in
      if truthy (DetailDict errors) then inl (DetailDict errors)
      else inr ret
  | _ =>
      inl (DetailDict
             {[ NON_FIELD_ERRORS_KEY :=
                  [ {| message := "Invalid data. Expected a dictionary, but got "
                                    ++ type_name data ++ ".";
                       code := "invalid" |} ] ]})
  end.

(** [Serializer.run_validation]: [None] is refused before the fields
    are looked at; a serializer has no validators of its own, so
    [validate] follows [to_internal_value] directly. *)
Definition Serializer_run_validation (s : Serializer) (data : json)
  : detail + gmap string string :=
  match data with
  | JNull =>
      inl (DetailList [ {| message := Field_messages "null"; code := "null" |} ])
  | _ =>
      match Serializer_to_internal_value s data with
      | inr value => inr (validate s value)
      | inl d => inl d
      end
  end.

(** [SomeSerializer(data=...)] followed by the state change of
    [is_valid()]. *)
Definition instantiate (s : Serializer) (data : json) : BoundSerializer :=
  match Serializer_run_validation s data with
  | inr value =>
      {| initial_data := data; _validated_data := value;
         _errors := DetailDict ∅ |}
  | inl d =>
      {| initial_data := data; _validated_data := ∅; _errors := d |}
  end.

(** [is_valid()] answers [not bool(self._errors)]. *)
Definition is_valid (b : BoundSerializer) : bool := negb (truthy (_errors b)).

Definition validated_data (b : BoundSerializer) : gmap string string :=
  _validated_data b.

(** The [errors] property: the one-element ["null"] list becomes a
    dict under the non-field key; building a dict from any other list
    raises, written [None]. *)
Definition errors (b : BoundSerializer)
  : option (gmap string (list ErrorDetail)) :=
  match _errors b with
  | DetailDict m => Some m
  | DetailList [d] =>
      if String.eqb (code d) "null"
      then Some {[ NON_FIELD_ERRORS_KEY :=
                     [ {| message := "No data provided"; code := "null" |} ] ]}
      else None
  | DetailList _ => None
  end.

End serializer.

(** *** [response.Response] *)

(** A rendered JSON member of a response body: a string, or a list of
    messages ([ErrorDetail] renders as its text). *)
Inductive body_value : Type :=
  | Text (s : string)
  | Messages (l : list string).

Record Response : Type := {
  data : gmap string body_value;
  status_code : Z
}.

Definition render_errors (m : gmap string (list ErrorDetail))
  : gmap string body_value :=
  (fun l => Messages (map message l)) <$> m.

End rest_framework.

Import rest_framework.

(** ** [django.contrib.auth] as seen from the handler

    The handler runs in a small state-and-exception monad.  The state is
    the [World] together with the log of the calls the handler makes on
    the two collaborators; an exception is a Python error that nothing in
    the handler catches. *)

Inductive exn : Type :=
  | KeyError (key : string)
  | ValueError.

Section effects.
Context `{Platform}.

Inductive Call : Type :=
  | CallAuthenticate (username password : string)
  | CallLogin (user : Principal).

Record State : Type := { world : World; calls : list Call }.

Definition M (A : Type) : Type := State -> (exn + A) * State.

Definition ret {A} (a : A) : M A := fun st => (inr a, st).

Definition raise {A} (e : exn) : M A := fun st => (inl e, st).

Definition bind {A B} (m : M A) (k : A -> M B) : M B :=
  fun st =>
    match m st with
    | (inr a, st') => k a st'
    | (inl e, st') => (inl e, st')
    end.

(** [d[key]] *)
Definition getitem {V} (d : gmap string V) (key : string) : M V :=
  match d !! key with
  | Some v => ret v
  | None => raise (KeyError key)
  end.

(** An optional result whose absence is a [ValueError]. *)
Definition value_or_raise {A} (o : option A) : M A :=
  match o with
  | Some a => ret a
  | None => raise ValueError
  end.

End effects.

Notation "'let*' x ':=' m 'in' k" := (bind m (fun x => k))
  (at level 10, x name, m at level 100, k at level 200, only parsing).

Module auth.
Section auth.
Context `{Platform}.

Definition authenticate (username password : string)
  : M (option Principal) :=
  fun st =>
    let '(w, user) := authenticate (world st) username password in
    (inr user,
     {| world := w;
        calls := calls st ++ [CallAuthenticate username password] |}).

Definition login (user : Principal) : M unit :=
  fun st =>
    (inr tt,
     {| world := login (world st) user;
        calls := calls st ++ [CallLogin user] |}).
End auth.
End auth.

(** ** [apps/api/serializers.py] *)

Module serializers.
Section serializers.
Context `{Platform}.

Definition email : Field := EmailField.
Definition password : Field := CharField true.

(** [def validate(self, data): return data] *)
Definition validate (data : gmap string string) : gmap string string :=
  data.

Definition LoginSerializer : Serializer :=
  {| _declared_fields := [("email", email); ("password", password)];
     rest_framework.validate := validate |}.
End serializers.
End serializers.

(** ** [apps/api/views.py] *)

Module views.
Import serializers.
Section views.
Context `{Platform}.

Definition login_successful : gmap string body_value :=
  <["message" := Text "Login successful"]>
    (<["redirect_url" := Text "/dashboard/"]> ∅).

Definition invalid_credentials : gmap string body_value :=
  <["error" := Text "Invalid credentials"]> ∅.

(** [LoginAPIView.post(self, request)], given [request.data]. *)
Definition post (request_data : json) : M Response :=
  let serializer := instantiate LoginSerializer request_data in
  if is_valid serializer then
    let* email := getitem (validated_data serializer) "email" in
    let* password := getitem (validated_data serializer) "password" in
    let* user := auth.authenticate email password in
    match user with
    | Some user =>
        let* _ := auth.login user in
        ret {| data := login_successful;
               status_code := status.HTTP_200_OK |}
    | None =>
        ret {| data := invalid_credentials;
               status_code := status.HTTP_401_UNAUTHORIZED |}
    end
  else
    let* errors := value_or_raise (errors serializer) in
    ret {| data := render_errors errors;
           status_code := status.HTTP_400_BAD_REQUEST |}.

(** One request against a world in which the handler has not yet
    called anything. *)
Definition handle (request_data : json) (w : World)
  : (exn + Response) * State :=
  post request_data {| world := w; calls := [] |}.

End views.
End views.

Import views.

(** ** A small platform to run the handler on

    Accounts are (e-mail, password) pairs, the principal is the e-mail,
    and the session remembers who logged in last.  The e-mail check is
    reduced to the presence of an at-sign. *)

Module Demo.

Record site : Type := {
  accounts : list (string * string);
  session : option string
}.

Definition check_password (username password : string)
    (account : string * string) : bool :=
  String.eqb (fst account) username && String.eqb (snd account) password.

#[export] Instance platform : Platform := {|
  Principal := string;
  World := site;
  EmailValidator := contains "@";
  float_str := fun _ => "0.5";
  authenticate := fun w username password =>
    (w, if existsb (check_password username password) (accounts w)
        then Some username else None);
  login := fun w user => {| accounts := accounts w; session := Some user |}
|}.

Definition w0 : World :=
  {| accounts := [("ann@example.org", "s3cret")]; session := None |}.

Definition credentials (email password : json) : json :=
  JObj (<["email" := email]> (<["password" := password]> ∅)).

(** Request bodies used in the examples. *)
Definition ann : json := credentials (JStr " ann@example.org ") (JStr " s3cret ").

Definition wrong_password : json :=
  credentials (JStr "ann@example.org") (JStr "guess").

Definition unknown_email : json :=
  credentials (JStr "bob@example.org") (JStr "s3cret").

Definition only_email : gmap string json := {[ "email" := JStr "ann@example.org" ]}.

Definition no_at_sign : gmap string json :=
  <["email" := JStr "ann.example.org"]> (<["password" := JStr "s3cret"]> ∅).

Definition padded : gmap string json :=
  <["email" := JStr " ann@example.org "]> (<["password" := JStr " s3cret "]> ∅).

Definition spaces_only : gmap string json :=
  <["email" := JStr "ann@example.org"]> (<["password" := JStr "   "]> ∅).

Definition empty_password : gmap string json :=
  <["email" := JStr "ann@example.org"]> (<["password" := JStr EmptyString]> ∅).


End Demo.

(** ** Notions used in the statements *)

Section notions.
Context `{Platform}.
Import serializers.

(** The value [v] found under ["email"] is accepted by the e-mail field
    and cleaned to [e]. *)
Definition syntactically_valid_email (v : option json) (e : string) : Prop :=
  run_validation email v = Ok e.

(** The value [v] found under ["password"] is accepted by the password
    field and cleaned to [p]. *)
Definition acceptable_password (v : option json) (p : string) : Prop :=
  run_validation password v = Ok p.

(** The request body is a mapping whose two entries are accepted, with
    cleaned values [e] and [p]. *)
Definition passes (request_data : json) (e p : string) : Prop :=
  exists m, request_data = JObj m
            /\ syntactically_valid_email (m !! "email") e
            /\ acceptable_password (m !! "password") p.

(** One step of the error dict that the loop of [to_internal_value]
    builds: a refused field adds its messages under its name. *)
Definition collect (field_name : string) (r : outcome string)
    (acc : gmap string (list ErrorDetail)) : gmap string (list ErrorDetail) :=
  match r with
  | ValidationError d => <[field_name := d]> acc
  | _ => acc
  end.

(** The error dict of [LoginSerializer] for the mapping [m]. *)
Definition field_errors (m : gmap string json)
  : gmap string (list ErrorDetail) :=
  collect "password" (run_validation password (m !! "password"))
    (collect "email" (run_validation email (m !! "email")) ∅).

(** The messages, if any, with which field [f] refuses its entry. *)
Definition refusal (field_name : string) (f : Field)
    (m : gmap string json) : option (list ErrorDetail) :=
  match run_validation f (m !! field_name) with
  | ValidationError d => Some d
  | _ => None
  end.

(** The three responses of [post]. *)
Definition success_response : Response :=
  {| data := login_successful; status_code := status.HTTP_200_OK |}.

Definition unauthorized_response : Response :=
  {| data := invalid_credentials; status_code := status.HTTP_401_UNAUTHORIZED |}.

Definition bad_request (errs : gmap string (list ErrorDetail)) : Response :=
  {| data := render_errors errs; status_code := status.HTTP_400_BAD_REQUEST |}.




(** What [fail("blank")] raises. *)
Definition blank_error (f : Field) : list ErrorDetail :=
  [ {| message := error_messages f "blank"; code := "blank" |} ].





End notions.

(** ** Further notions: texts and entry shapes *)

(** Every character of [s] satisfies [P]. *)
Fixpoint all_chars (P : ascii -> bool) (s : string) : bool :=
  match s with
  | String c t => P c && all_chars P t
  | EmptyString => true
  end.

(** The characters [str] of an [int] is made of. *)
Definition is_digit_or_dash (c : ascii) : bool :=
  let n := ord c in (((48 <=? n) && (n <=? 57)) || (n =? 45))%N.

(** Neither whitespace nor NUL. *)
Definition is_plain (c : ascii) : bool :=
  negb (isspace c) && negb (ord c =? 0)%N.

(** The values [CharField.to_internal_value] refuses outright: booleans
    and containers. *)
Definition not_text (v : json) : bool :=
  match v with
  | JBool _ | JList _ | JObj _ => true
  | JNull | JInt _ | JFloat _ | JStr _ => false
  end.

Section entry_notions.
Context `{Platform}.

(** The text a field entry stands for, when it stands for one: a string
    itself, a number through [str]. *)
Definition entry_text (v : json) : option string :=
  match v with
  | JStr s => Some s
  | JInt z => Some (pretty z)
  | JFloat x => Some (float_str x)
  | JNull | JBool _ | JList _ | JObj _ => None
  end.

(** A cleaned value that both fields insist on: not empty, no NUL. *)
Definition clean (value : string) : Prop :=
  value <> EmptyString /\ contains_nul value = false.

End entry_notions.

(** Further request bodies for the examples. *)

Module Samples.
Import Demo.

Definition remembered : gmap string json := <["remember" := JBool true]> padded.

Definition wrong_types : gmap string json :=
  <["email" := JList []]> (<["password" := JBool true]> ∅).

Definition null_email : gmap string json :=
  <["email" := JNull]> (<["password" := JStr "s3cret"]> ∅).


Definition numeric_password : gmap string json :=
  <["email" := JStr "ann@example.org"]> (<["password" := JInt 12345]> ∅).

Definition blank_refusal : Response :=
  {| data := {[ "password" := Messages ["This field may not be blank."] ]};
     status_code := 400 |}.

End Samples.

(** * Theorems *)

(** ** [str.strip] on examples *)

Example strip_pads : strip " p " = "p".
Proof. reflexivity. Qed.

Example strip_inner_kept : strip (String "009" "a b ") = "a b".
Proof. reflexivity. Qed.

Example strip_blank : strip "   " = EmptyString.
Proof. reflexivity. Qed.

(** ** The validation stage of [LoginSerializer] *)

Section validation.
Context `{Platform}.
Import serializers.

Ltac unfold_instantiate :=
  unfold instantiate, Serializer_run_validation,
    Serializer_to_internal_value, validate_fields, LoginSerializer;
  cbn [_declared_fields fold_left rest_framework.validate].

Lemma truthy_insert (k : string) (d : list ErrorDetail)
    (m : gmap string (list ErrorDetail)) :
  truthy (DetailDict (<[k := d]> m)) = true.
Proof.
  simpl. apply negb_true_iff, Nat.eqb_neq.
  rewrite map_size_empty_iff. apply insert_non_empty.
Qed.

Lemma required_never_skips (f : Field) (v : option json) :
  required f = true -> run_validation f v <> SkipField.
Proof.
  intros Hreq. unfold run_validation, Field_run_validation, fail.
  destruct (is_blank f v); [destruct (allow_blank f); discriminate |].
  destruct v as [d|]; [| rewrite Hreq; discriminate].
  unfold to_internal_value, run_validators, fail.
  destruct d; try discriminate;
    match goal with
    | |- context [concat ?l] => destruct (concat l); discriminate
    end.
Qed.

(** What [is_valid()] leaves in the serializer for a mapping, by the
    outcome of the two fields. *)
Lemma instantiate_accepted (m : gmap string json) (e p : string) :
  syntactically_valid_email (m !! "email") e ->
  acceptable_password (m !! "password") p ->
  instantiate LoginSerializer (JObj m) =
    {| initial_data := JObj m;
       _validated_data := <["password" := p]> (<["email" := e]> ∅);
       _errors := DetailDict ∅ |}.
Proof.
  unfold syntactically_valid_email, acceptable_password. intros He Hp.
  unfold_instantiate. rewrite He, Hp. reflexivity.
Qed.

Lemma lookup_field_errors (m : gmap string json) (k : string) :
  field_errors m !! k =
    if String.eqb k "password" then refusal "password" password m
    else if String.eqb k "email" then refusal "email" email m
    else None.
Proof.
  unfold field_errors, collect, refusal.
  destruct (String.eqb_spec k "password") as [-> | Hp];
    [| destruct (String.eqb_spec k "email") as [-> | He]];
    destruct (run_validation password _), (run_validation email _);
    simplify_map_eq; reflexivity.
Qed.

Lemma field_errors_empty (m : gmap string json) :
  field_errors m = ∅ ->
  exists e p, syntactically_valid_email (m !! "email") e
              /\ acceptable_password (m !! "password") p.
Proof.
  intros Hempty.
  pose proof (lookup_field_errors m "email") as He.
  pose proof (lookup_field_errors m "password") as Hp.
  rewrite Hempty, lookup_empty in He, Hp. cbn in He, Hp.
  unfold refusal in He, Hp.
  unfold syntactically_valid_email, acceptable_password.
  destruct (run_validation email (m !! "email")) as [e | d |] eqn:Ee;
    [| discriminate | exfalso; revert Ee; apply required_never_skips; reflexivity].
  destruct (run_validation password (m !! "password")) as [p | d |] eqn:Ep;
    [| discriminate | exfalso; revert Ep; apply required_never_skips; reflexivity].
  exists e, p. split; reflexivity.
Qed.

Lemma instantiate_refused (m : gmap string json) :
  field_errors m <> ∅ ->
  instantiate LoginSerializer (JObj m) =
    {| initial_data := JObj m; _validated_data := ∅;
       _errors := DetailDict (field_errors m) |}.
Proof.
  intros Hne. unfold_instantiate. unfold field_errors, collect in *.
  destruct (run_validation email (m !! "email")) as [e | d |];
    destruct (run_validation password (m !! "password")) as [p | d' |];
    try (exfalso; apply Hne; reflexivity);
    rewrite ?truthy_insert; reflexivity.
Qed.

End validation.

(** ** The handler, branch by branch *)

Section handler.
Context `{Platform}.
Import serializers.

(** After a successful validation the handler asks [authenticate] once
    and branches on its answer. *)
Lemma handle_accepted (request_data : json) (w : World) (e p : string) :
  passes request_data e p ->
  handle request_data w =
    match authenticate w e p with
    | (w', Some user) =>
        (inr success_response,
         {| world := login w' user;
            calls := [CallAuthenticate e p; CallLogin user] |})
    | (w', None) =>
        (inr unauthorized_response,
         {| world := w'; calls := [CallAuthenticate e p] |})
    end.
Proof.
  intros (m & -> & He & Hp).
  unfold handle, post. rewrite (instantiate_accepted m e p He Hp).
  unfold is_valid, validated_data, getitem, bind, ret. cbn [_errors _validated_data].
  replace (truthy (DetailDict ∅)) with false by reflexivity. cbn [negb].
  rewrite lookup_insert_ne by discriminate.
  rewrite lookup_insert_eq, lookup_insert_eq.
  unfold auth.authenticate. cbn [world calls app].
  destruct (authenticate w e p) as [w' [user|]]; reflexivity.
Qed.

(** With a non-empty dict of field errors the handler answers 400 and
    calls nothing. *)
Lemma handle_refused (request_data : json) (w : World)
    (errs : gmap string (list ErrorDetail)) :
  _errors (instantiate LoginSerializer request_data) = DetailDict errs ->
  errs <> ∅ ->
  handle request_data w =
    (inr (bad_request errs), {| world := w; calls := [] |}).
Proof.
  intros Herrs Hne. unfold handle, post, is_valid, errors.
  rewrite Herrs. cbn [truthy].
  destruct (Nat.eqb_spec (size errs) 0) as [Hz | _].
  - apply map_size_empty_iff in Hz. contradiction.
  - reflexivity.
Qed.

(** A body that is not a mapping never reaches the fields. *)
Lemma handle_not_a_mapping (request_data : json) (w : World) :
  (forall m, request_data <> JObj m) ->
  exists msg,
    handle request_data w =
      (inr (bad_request {[ NON_FIELD_ERRORS_KEY := [msg] ]}),
       {| world := w; calls := [] |}).
Proof.
  intros Hno.
  destruct request_data; try (exfalso; eapply Hno; reflexivity);
    eexists; reflexivity.
Qed.

(** Every request falls under exactly one of the lemmas above. *)
Lemma validation_cases (request_data : json) :
  (exists e p, passes request_data e p)
  \/ (exists errs, errs <> ∅
        /\ _errors (instantiate LoginSerializer request_data) = DetailDict errs)
  \/ request_data = JNull.
Proof.
  destruct request_data as [| b | z | x | s | l | m];
    try (right; left; eexists; split; [| reflexivity];
         apply insert_non_empty).
  - right; right; reflexivity.
  - destruct (decide (field_errors m = ∅)) as [Hempty | Hne].
    + left. destruct (field_errors_empty m Hempty) as (e & p & He & Hp).
      exists e, p, m. repeat split; assumption.
    + right; left. exists (field_errors m). split; [exact Hne |].
      rewrite (instantiate_refused m Hne). reflexivity.
Qed.

End handler.

(** ** Properties of [POST /login/] *)

Section properties.
Context `{Platform}.
Import serializers.

Lemma passes_is_valid (request_data : json) :
  is_valid (instantiate LoginSerializer request_data) = true
  <-> exists e p, passes request_data e p.
Proof.
  split.
  - intros Hv.
    destruct (validation_cases request_data) as [Hp | [(errs & Hne & He) | ->]].
    + exact Hp.
    + exfalso. unfold is_valid in Hv. rewrite He in Hv. cbn [truthy] in Hv.
      apply negb_true_iff, negb_false_iff, Nat.eqb_eq, map_size_empty_iff in Hv.
      contradiction.
    + discriminate Hv.
  - intros (e & p & m & -> & He & Hp).
    rewrite (instantiate_accepted m e p He Hp). reflexivity.
Qed.

Lemma handle_invalid (request_data : json) (w : World) :
  is_valid (instantiate LoginSerializer request_data) = false ->
  exists errs, errs <> ∅ /\
    handle request_data w =
      (inr (bad_request errs), {| world := w; calls := [] |}).
Proof.
  intros Hv.
  destruct (validation_cases request_data) as [Hp | [(errs & Hne & He) | ->]].
  - apply passes_is_valid in Hp. congruence.
  - exists errs. split; [exact Hne |]. apply handle_refused; assumption.
  - eexists. split; [| reflexivity]. apply insert_non_empty.
Qed.

(** C1.  When the body carries a syntactically valid e-mail and a
    password, and [authenticate] answers with a principal for them, the
    handler returns status 200 with the body
    [{"message": "Login successful", "redirect_url": "/dashboard/"}]. *)
Theorem login_success (request_data : json) (w w' : World)
    (e p : string) (user : Principal) :
  passes request_data e p ->
  authenticate w e p = (w', Some user) ->
  exists st,
    handle request_data w =
      (inr {| data := {[ "message" := Text "Login successful";
                         "redirect_url" := Text "/dashboard/" ]};
              status_code := 200 |}, st).
Proof.
  intros Hp Ha. rewrite (handle_accepted _ _ e p Hp), Ha.
  eexists. reflexivity.
Qed.

(** C3.  When the request passes validation and [authenticate] answers
    [None], the handler returns status 401 with the body
    [{"error": "Invalid credentials"}]. *)
Theorem invalid_credentials_response (request_data : json) (w w' : World)
    (e p : string) :
  passes request_data e p ->
  authenticate w e p = (w', None) ->
  exists st,
    handle request_data w =
      (inr {| data := {[ "error" := Text "Invalid credentials" ]};
              status_code := 401 |}, st).
Proof.
  intros Hp Ha. rewrite (handle_accepted _ _ e p Hp), Ha.
  eexists. reflexivity.
Qed.

(** C4.  Two requests that both pass validation and are both answered
    [None] by [authenticate] get the same response, whatever the two
    e-mails, passwords and worlds are: the answer does not tell an
    unknown e-mail from a wrong password. *)
Theorem uniform_failure (data1 data2 : json) (w1 w1' w2 w2' : World)
    (e1 p1 e2 p2 : string) :
  passes data1 e1 p1 ->
  passes data2 e2 p2 ->
  authenticate w1 e1 p1 = (w1', None) ->
  authenticate w2 e2 p2 = (w2', None) ->
  fst (handle data1 w1) = fst (handle data2 w2)
  /\ exists r, fst (handle data1 w1) = inr r
               /\ status_code r = status.HTTP_401_UNAUTHORIZED.
Proof.
  intros Hp1 Hp2 Ha1 Ha2.
  rewrite (handle_accepted _ _ e1 p1 Hp1), Ha1.
  rewrite (handle_accepted _ _ e2 p2 Hp2), Ha2.
  split; [reflexivity |]. eexists. split; reflexivity.
Qed.

Lemma handle_object_refused (m : gmap string json) (w : World) :
  field_errors m <> ∅ ->
  handle (JObj m) w =
    (inr (bad_request (field_errors m)), {| world := w; calls := [] |}).
Proof.
  intros Hne. apply handle_refused; [| exact Hne].
  rewrite (instantiate_refused m Hne). reflexivity.
Qed.

Lemma refusal_in_body (m : gmap string json) (k : string)
    (d : list ErrorDetail) :
  field_errors m !! k = Some d ->
  data (bad_request (field_errors m)) !! k = Some (Messages (map message d)).
Proof.
  intros Hk. unfold bad_request, render_errors. cbn [data].
  rewrite lookup_fmap, Hk. reflexivity.
Qed.

Lemma refused_not_empty (m : gmap string json) (k : string)
    (d : list ErrorDetail) :
  field_errors m !! k = Some d -> field_errors m <> ∅.
Proof. intros Hk Hempty. rewrite Hempty, lookup_empty in Hk. discriminate. Qed.

(** C5.  When the body lacks the e-mail entry, the password entry or
    both, the handler returns status 400 and the body has, under the
    name of each missing field, a list of messages (the single message
    "This field is required."). *)
Theorem missing_fields_rejected (m : gmap string json) (w : World) :
  m !! "email" = None \/ m !! "password" = None ->
  exists r,
    handle (JObj m) w = (inr r, {| world := w; calls := [] |})
    /\ status_code r = 400%Z
    /\ forall field_name,
         field_name ∈ ["email"; "password"] ->
         m !! field_name = None ->
         data r !! field_name = Some (Messages ["This field is required."]).
Proof.
  intros Hmissing.
  assert (Hreq : forall field_name,
             field_name ∈ ["email"; "password"] ->
             m !! field_name = None ->
             field_errors m !! field_name =
               Some [ {| message := "This field is required.";
                         code := "required" |} ]).
  { intros k Hk Hnone. rewrite lookup_field_errors. unfold refusal.
    apply elem_of_cons in Hk as [-> | Hk];
      [| apply list_elem_of_singleton in Hk as ->];
      cbn [String.eqb Ascii.eqb Bool.eqb]; rewrite Hnone; reflexivity. }
  exists (bad_request (field_errors m)).
  assert (Hne : field_errors m <> ∅).
  { destruct Hmissing as [He | Hp];
      eapply refused_not_empty, Hreq; try eassumption; set_solver. }
  split; [apply handle_object_refused; exact Hne |].
  split; [reflexivity |].
  intros k Hk Hnone.
  rewrite (refusal_in_body m k _ (Hreq k Hk Hnone)). reflexivity.
Qed.

(** C6.  When the e-mail entry is present but is not a syntactically
    valid e-mail address, the handler returns status 400 and
    [authenticate] is not called. *)
Theorem invalid_email_rejected (m : gmap string json) (v : json) (w : World) :
  m !! "email" = Some v ->
  (forall e, ~ syntactically_valid_email (Some v) e) ->
  exists r,
    handle (JObj m) w = (inr r, {| world := w; calls := [] |})
    /\ status_code r = 400%Z
    /\ exists messages, data r !! "email" = Some (Messages messages).
Proof.
  intros Hv Hbad.
  destruct (run_validation email (m !! "email")) as [e | d |] eqn:He.
  - exfalso. apply (Hbad e). rewrite <- Hv. exact He.
  - assert (Hk : field_errors m !! "email" = Some d).
    { rewrite lookup_field_errors. unfold refusal.
      cbn [String.eqb Ascii.eqb Bool.eqb]. rewrite He. reflexivity. }
    exists (bad_request (field_errors m)).
    split; [apply handle_object_refused; eapply refused_not_empty; exact Hk |].
    split; [reflexivity |].
    exists (map message d). apply refusal_in_body. exact Hk.
  - exfalso. revert He. apply required_never_skips. reflexivity.
Qed.


(** C9.  [login] is called exactly when [authenticate] returned a
    principal.  After a validation failure the handler has called
    nothing and the world is the one it started from; after a [None]
    from [authenticate] its only call is that one and the world is the
    one [authenticate] left. *)
Theorem login_only_after_authentication (request_data : json) (w : World) :
  (forall user,
      CallLogin user ∈ calls (snd (handle request_data w))
      <-> exists e p w', passes request_data e p
                         /\ authenticate w e p = (w', Some user))
  /\ (is_valid (instantiate LoginSerializer request_data) = false ->
      snd (handle request_data w) = {| world := w; calls := [] |})
  /\ (forall e p w',
         passes request_data e p ->
         authenticate w e p = (w', None) ->
         snd (handle request_data w) =
           {| world := w'; calls := [CallAuthenticate e p] |}).
Proof.
  split; [| split].
  - intros user. split.
    + destruct (is_valid (instantiate LoginSerializer request_data)) eqn:Hv.
      * apply passes_is_valid in Hv as (e & p & Hp).
        rewrite (handle_accepted _ w e p Hp).
        destruct (authenticate w e p) as [w' [user' |]] eqn:Ha; cbn [snd calls].
        -- intros Hin. exists e, p, w'. split; [exact Hp |].
           apply elem_of_cons in Hin as [Hin | Hin]; [discriminate |].
           apply list_elem_of_singleton in Hin. congruence.
        -- intros Hin. apply list_elem_of_singleton in Hin. discriminate.
      * destruct (handle_invalid _ w Hv) as (errs & _ & ->). cbn [snd calls].
        intros Hin. apply elem_of_nil in Hin. contradiction.
    + intros (e & p & w' & Hp & Ha).
      rewrite (handle_accepted _ w e p Hp), Ha. cbn [snd calls]. set_solver.
  - intros Hv. destruct (handle_invalid _ w Hv) as (errs & _ & ->). reflexivity.
  - intros e p w' Hp Ha. rewrite (handle_accepted _ w e p Hp), Ha. reflexivity.
Qed.

(** *** String-valued entries *)

Lemma password_of_string (s : string) :
  run_validation password (Some (JStr s)) =
    if String.eqb (strip s) EmptyString then ValidationError (blank_error password)
    else if contains_nul (strip s)
         then ValidationError (ProhibitNullCharactersValidator (strip s))
         else Ok (strip s).
Proof.
  unfold run_validation, is_blank, Field_run_validation, to_internal_value,
    run_validators, password, CharField, fail, blank_error.
  cbn [trim_whitespace allow_blank validators error_messages map concat app andb].
  destruct (String.eqb_spec s EmptyString) as [-> | Hs]; [reflexivity |].
  cbn [orb]. destruct (String.eqb (strip s) EmptyString); [reflexivity |].
  unfold ProhibitNullCharactersValidator.
  destruct (contains_nul (strip s)); reflexivity.
Qed.

Lemma email_of_string (s : string) :
  run_validation email (Some (JStr s)) =
    if String.eqb (strip s) EmptyString then ValidationError (blank_error email)
    else match (ProhibitNullCharactersValidator (strip s)
                  ++ email_validator "Enter a valid email address." (strip s))%list with
         | [] => Ok (strip s)
         | errors => ValidationError errors
         end.
Proof.
  unfold run_validation, is_blank, Field_run_validation, to_internal_value,
    run_validators, email, EmailField, fail, blank_error.
  cbn [trim_whitespace allow_blank validators error_messages map concat app andb].
  destruct (String.eqb_spec s EmptyString) as [-> | Hs]; [reflexivity |].
  cbn [orb]. destruct (String.eqb (strip s) EmptyString); [reflexivity |].
  rewrite app_nil_r. reflexivity.
Qed.

Lemma accepted_strings (m : gmap string json) (raw_email raw_password e p : string) :
  m !! "email" = Some (JStr raw_email) ->
  m !! "password" = Some (JStr raw_password) ->
  passes (JObj m) e p ->
  e = strip raw_email /\ p = strip raw_password.
Proof.
  intros Hme Hmp (m' & [= <-] & He & Hp).
  unfold syntactically_valid_email, acceptable_password in He, Hp.
  rewrite Hme, email_of_string in He. rewrite Hmp, password_of_string in Hp.
  split.
  - destruct (String.eqb (strip raw_email) EmptyString); [discriminate |].
    destruct (_ ++ _)%list; [congruence | discriminate].
  - destruct (String.eqb (strip raw_password) EmptyString); [discriminate |].
    destruct (contains_nul (strip raw_password)); [discriminate | congruence].
Qed.

(** C10.  Both fields trim: for string entries, a request that passes
    validation has [authenticate] called with the two stripped values,
    and a password made of whitespace only is refused as blank before
    any call. *)
Theorem whitespace_trimmed (m : gmap string json)
    (raw_email raw_password : string) (w : World) :
  m !! "email" = Some (JStr raw_email) ->
  m !! "password" = Some (JStr raw_password) ->
  trim_whitespace email = true /\ trim_whitespace password = true
  /\ (is_valid (instantiate LoginSerializer (JObj m)) = true ->
      exists rest,
        calls (snd (handle (JObj m) w)) =
          CallAuthenticate (strip raw_email) (strip raw_password) :: rest)
  /\ (strip raw_password = EmptyString ->
      exists r,
        handle (JObj m) w = (inr r, {| world := w; calls := [] |})
        /\ status_code r = 400%Z
        /\ data r !! "password" = Some (Messages ["This field may not be blank."])).
Proof.
  intros Hme Hmp. split; [reflexivity |]. split; [reflexivity |]. split.
  - intros Hv. apply passes_is_valid in Hv as (e & p & Hp).
    destruct (accepted_strings m _ _ e p Hme Hmp Hp) as [-> ->].
    rewrite (handle_accepted _ w _ _ Hp).
    destruct (authenticate w _ _) as [w' [user |]]; eexists; reflexivity.
  - intros Hblank.
    assert (Hk : field_errors m !! "password" = Some (blank_error password)).
    { rewrite lookup_field_errors. unfold refusal.
      cbn [String.eqb Ascii.eqb Bool.eqb].
      rewrite Hmp, password_of_string, Hblank. reflexivity. }
    exists (bad_request (field_errors m)).
    split; [apply handle_object_refused; eapply refused_not_empty; exact Hk |].
    split; [reflexivity |].
    rewrite (refusal_in_body m _ _ Hk). reflexivity.
Qed.

(** C2, as the code has it.  With a syntactically valid e-mail and the
    empty string as password the request is stopped at the validation
    stage: status 400, the body names the password as blank, and
    [authenticate] is not called. *)
Theorem empty_password_rejected (m : gmap string json) (e : string) (w : World) :
  syntactically_valid_email (m !! "email") e ->
  m !! "password" = Some (JStr EmptyString) ->
  is_valid (instantiate LoginSerializer (JObj m)) = false
  /\ handle (JObj m) w =
       (inr {| data := {[ "password" := Messages ["This field may not be blank."] ]};
               status_code := 400 |},
        {| world := w; calls := [] |}).
Proof.
  intros He Hmp.
  assert (Herrs : field_errors m = {[ "password" := blank_error password ]}).
  { unfold field_errors. unfold syntactically_valid_email in He.
    rewrite He, Hmp. reflexivity. }
  assert (Hne : field_errors m <> ∅).
  { rewrite Herrs. apply insert_non_empty. }
  split.
  - rewrite (instantiate_refused m Hne), Herrs. reflexivity.
  - rewrite (handle_object_refused m w Hne), Herrs.
    unfold bad_request, render_errors. rewrite map_fmap_singleton. reflexivity.
Qed.

(** *** What a response body is made of *)












End properties.


(** ** The theorems at work on the small platform *)

Section examples.
Import serializers Demo.

Lemma ann_passes : passes ann "ann@example.org" "s3cret".
Proof. eexists. split; [reflexivity |]. split; vm_compute; reflexivity. Defined.

Lemma wrong_password_passes : passes wrong_password "ann@example.org" "guess".
Proof. eexists. split; [reflexivity |]. split; vm_compute; reflexivity. Defined.

Lemma unknown_email_passes : passes unknown_email "bob@example.org" "s3cret".
Proof. eexists. split; [reflexivity |]. split; vm_compute; reflexivity. Defined.

Lemma login_success_witness :
  passes ann "ann@example.org" "s3cret"
  /\ authenticate w0 "ann@example.org" "s3cret" = (w0, Some "ann@example.org")
  /\ exists st,
       handle ann w0 =
         (inr {| data := {[ "message" := Text "Login successful";
                            "redirect_url" := Text "/dashboard/" ]};
                 status_code := 200 |}, st).
Proof.
  split; [exact ann_passes |]. split; [vm_compute; reflexivity |].
  apply (login_success ann w0 w0 "ann@example.org" "s3cret" "ann@example.org");
    [exact ann_passes | vm_compute; reflexivity].
Defined.

Lemma invalid_credentials_response_witness :
  passes wrong_password "ann@example.org" "guess"
  /\ authenticate w0 "ann@example.org" "guess" = (w0, None)
  /\ exists st,
       handle wrong_password w0 =
         (inr {| data := {[ "error" := Text "Invalid credentials" ]};
                 status_code := 401 |}, st).
Proof.
  split; [exact wrong_password_passes |]. split; [vm_compute; reflexivity |].
  apply (invalid_credentials_response wrong_password w0 w0 "ann@example.org" "guess");
    [exact wrong_password_passes | vm_compute; reflexivity].
Defined.

Lemma uniform_failure_witness :
  fst (handle unknown_email w0) = fst (handle wrong_password w0)
  /\ exists r, fst (handle unknown_email w0) = inr r
               /\ status_code r = status.HTTP_401_UNAUTHORIZED.
Proof.
  apply (uniform_failure unknown_email wrong_password w0 w0 w0 w0
           "bob@example.org" "s3cret" "ann@example.org" "guess");
    [exact unknown_email_passes | exact wrong_password_passes
    | vm_compute; reflexivity | vm_compute; reflexivity].
Defined.

Lemma missing_fields_rejected_witness :
  exists r,
    handle (JObj only_email) w0 = (inr r, {| world := w0; calls := [] |})
    /\ status_code r = 400%Z
    /\ forall field_name,
         field_name ∈ ["email"; "password"] ->
         only_email !! field_name = None ->
         data r !! field_name = Some (Messages ["This field is required."]).
Proof.
  apply (missing_fields_rejected only_email w0).
  right. vm_compute. reflexivity.
Defined.

Lemma invalid_email_rejected_witness :
  exists r,
    handle (JObj no_at_sign) w0 = (inr r, {| world := w0; calls := [] |})
    /\ status_code r = 400%Z
    /\ exists messages, data r !! "email" = Some (Messages messages).
Proof.
  apply (invalid_email_rejected no_at_sign (JStr "ann.example.org") w0).
  - vm_compute. reflexivity.
  - intros e. unfold syntactically_valid_email. vm_compute. discriminate.
Defined.

Lemma login_only_after_authentication_witness :
  CallLogin "ann@example.org" ∈ calls (snd (handle ann w0))
  /\ snd (handle (JObj only_email) w0) = {| world := w0; calls := [] |}
  /\ snd (handle wrong_password w0) =
       {| world := w0; calls := [CallAuthenticate "ann@example.org" "guess"] |}.
Proof.
  split; [| split].
  - apply (proj1 (login_only_after_authentication ann w0)).
    exists "ann@example.org", "s3cret", w0.
    split; [exact ann_passes | vm_compute; reflexivity].
  - apply (proj1 (proj2 (login_only_after_authentication (JObj only_email) w0))).
    vm_compute. reflexivity.
  - apply (proj2 (proj2 (login_only_after_authentication wrong_password w0))
             "ann@example.org" "guess" w0);
      [exact wrong_password_passes | vm_compute; reflexivity].
Defined.

Lemma whitespace_trimmed_witness :
  (exists rest,
      calls (snd (handle (JObj padded) w0)) =
        CallAuthenticate "ann@example.org" "s3cret" :: rest)
  /\ (exists r,
        handle (JObj spaces_only) w0 = (inr r, {| world := w0; calls := [] |})
        /\ status_code r = 400%Z
        /\ data r !! "password" = Some (Messages ["This field may not be blank."])).
Proof.
  split.
  - apply (whitespace_trimmed padded " ann@example.org " " s3cret " w0);
      vm_compute; reflexivity.
  - apply (whitespace_trimmed spaces_only "ann@example.org" "   " w0);
      vm_compute; reflexivity.
Defined.

(** C2 fails on the code: here the e-mail is syntactically valid and the
    password entry is present with the empty string, yet the request does
    not pass the validation stage; the answer is 400 and [authenticate]
    is never called. *)
Lemma empty_password_counterexample :
  syntactically_valid_email (empty_password !! "email") "ann@example.org"
  /\ empty_password !! "password" = Some (JStr EmptyString)
  /\ is_valid (instantiate LoginSerializer (JObj empty_password)) = false
  /\ (forall e p, ~ passes (JObj empty_password) e p)
  /\ handle (JObj empty_password) w0 =
       (inr {| data := {[ "password" := Messages ["This field may not be blank."] ]};
               status_code := 400 |},
        {| world := w0; calls := [] |}).
Proof.
  split; [vm_compute; reflexivity |]. split; [vm_compute; reflexivity |].
  split; [vm_compute; reflexivity |]. split; [| vm_compute; reflexivity].
  intros e p (m & [= <-] & _ & Hp). revert Hp.
  unfold acceptable_password. vm_compute. discriminate.
Qed.

Lemma empty_password_rejected_witness :
  is_valid (instantiate LoginSerializer (JObj empty_password)) = false
  /\ handle (JObj empty_password) w0 =
       (inr {| data := {[ "password" := Messages ["This field may not be blank."] ]};
               status_code := 400 |},
        {| world := w0; calls := [] |}).
Proof.
  apply (empty_password_rejected empty_password "ann@example.org" w0);
    vm_compute; reflexivity.
Defined.



End examples.


(** ** [str.strip], in general *)

Section text.

Lemma append_cons (x : ascii) (a b : string) :
  (String x a ++ b)%string = String x (a ++ b).
Proof. reflexivity. Qed.

Lemma append_assoc (a b c : string) :
  ((a ++ b) ++ c)%string = (a ++ (b ++ c))%string.
Proof.
  induction a as [| x a IH]; [reflexivity |].
  rewrite !append_cons, IH. reflexivity.
Qed.

Lemma rev_app_app (s t : string) :
  String.rev_app s t = (String.rev s ++ t)%string.
Proof.
  unfold String.rev. revert t.
  induction s as [| c s IH]; intros t; [reflexivity |].
  cbn [String.rev_app]. rewrite (IH (String c t)), (IH (String c EmptyString)).
  rewrite append_assoc. reflexivity.
Qed.

Lemma rev_cons (c : ascii) (s : string) :
  String.rev (String c s) = (String.rev s ++ String c EmptyString)%string.
Proof. unfold String.rev at 1. cbn [String.rev_app]. apply rev_app_app. Qed.

Lemma rev_snoc (s : string) (c : ascii) :
  String.rev (s ++ String c EmptyString) = String c (String.rev s).
Proof.
  induction s as [| a s IH]; [reflexivity |].
  rewrite append_cons, rev_cons, IH, rev_cons. reflexivity.
Qed.

Lemma lstrip_app (a b : string) :
  lstrip (a ++ b) =
    match lstrip a with
    | EmptyString => lstrip b
    | r => (r ++ b)%string
    end.
Proof.
  induction a as [| c a IH]; [reflexivity |].
  rewrite append_cons. cbn [lstrip]. destruct (isspace c); [exact IH | reflexivity].
Qed.

(** [rstrip] read from the front of the text. *)
Lemma rstrip_cons (c : ascii) (s : string) :
  rstrip (String c s) =
    match rstrip s with
    | EmptyString => if isspace c then EmptyString else String c EmptyString
    | r => String c r
    end.
Proof.
  unfold rstrip. rewrite rev_cons, lstrip_app.
  destruct (lstrip (String.rev s)) as [| a r].
  - cbn [lstrip]. destruct (isspace c); reflexivity.
  - rewrite rev_snoc.
    destruct (String.rev (String a r)) as [| a' r'] eqn:Hrev; [| reflexivity].
    exfalso. rewrite rev_cons in Hrev.
    destruct (String.rev r); discriminate.
Qed.

Lemma lstrip_idempotent (s : string) : lstrip (lstrip s) = lstrip s.
Proof.
  induction s as [| c s IH]; [reflexivity |].
  cbn [lstrip]. destruct (isspace c) eqn:Hc; [exact IH |].
  cbn [lstrip]. rewrite Hc. reflexivity.
Qed.

Lemma rstrip_idempotent (s : string) : rstrip (rstrip s) = rstrip s.
Proof.
  induction s as [| c s IH]; [reflexivity |].
  rewrite rstrip_cons. destruct (rstrip s) as [| a r] eqn:Hr.
  - destruct (isspace c) eqn:Hc; [reflexivity |].
    rewrite rstrip_cons. change (rstrip EmptyString) with EmptyString.
    rewrite Hc. reflexivity.
  - rewrite rstrip_cons, IH. reflexivity.
Qed.

Lemma lstrip_rstrip (s : string) : lstrip (rstrip s) = rstrip (lstrip s).
Proof.
  induction s as [| c s IH]; [reflexivity |].
  cbn [lstrip]. destruct (isspace c) eqn:Hc.
  - rewrite rstrip_cons, Hc, <- IH.
    destruct (rstrip s) as [| a r]; [reflexivity |].
    cbn [lstrip]. rewrite Hc. reflexivity.
  - rewrite rstrip_cons, Hc.
    destruct (rstrip s); cbn [lstrip]; rewrite Hc; reflexivity.
Qed.

Lemma strip_idempotent (s : string) : strip (strip s) = strip s.
Proof.
  unfold strip.
  rewrite lstrip_rstrip, lstrip_idempotent, rstrip_idempotent. reflexivity.
Qed.

(** A text without whitespace is left alone. *)
Lemma strip_plain (s : string) :
  all_chars (fun c => negb (isspace c)) s = true -> strip s = s.
Proof.
  intros Hs. unfold strip.
  assert (Hl : lstrip s = s).
  { destruct s as [| c s]; [reflexivity |]. cbn in Hs |- *.
    destruct (isspace c); [discriminate | reflexivity]. }
  rewrite Hl. clear Hl.
  induction s as [| c s IH]; [reflexivity |].
  cbn [all_chars] in Hs. apply andb_true_iff in Hs as [Hc Hs].
  rewrite rstrip_cons, (IH Hs).
  destruct s; [| reflexivity].
  apply negb_true_iff in Hc. rewrite Hc. reflexivity.
Qed.

Lemma all_chars_impl (P Q : ascii -> bool) (s : string) :
  (forall c, P c = true -> Q c = true) ->
  all_chars P s = true -> all_chars Q s = true.
Proof.
  intros HPQ. induction s as [| c s IH]; [reflexivity |].
  cbn [all_chars]. rewrite !andb_true_iff. intros [Hc Hs]. auto.
Qed.

Lemma plain_no_nul (s : string) :
  all_chars is_plain s = true -> contains_nul s = false.
Proof.
  induction s as [| c s IH]; [reflexivity |].
  cbn [all_chars contains_nul]. unfold is_plain at 1.
  rewrite !andb_true_iff, !negb_true_iff. intros [[_ Hc] Hs].
  rewrite Hc, (IH Hs). reflexivity.
Qed.

Lemma digit_or_dash_plain (c : ascii) :
  is_digit_or_dash c = true -> is_plain c = true.
Proof.
  unfold is_digit_or_dash, is_plain, isspace.
  destruct (ord c) as [| n] eqn:Hn; [discriminate |].
  intros Hd. apply orb_true_iff in Hd.
  rewrite andb_true_iff, !negb_true_iff. split; [| reflexivity].
  repeat (apply orb_false_iff; split);
    rewrite ?andb_false_iff, ?N.leb_gt, ?N.eqb_neq;
    rewrite andb_true_iff, !N.leb_le, N.eqb_eq in Hd; lia.
Qed.

Lemma pretty_N_go_digits (x : N) (s : string) :
  all_chars is_digit_or_dash s = true ->
  all_chars is_digit_or_dash (pretty_N_go x s) = true.
Proof.
  revert s. induction (N.lt_wf_0 x) as [x _ IH]. intros s Hs.
  destruct (N.eq_dec x 0%N) as [-> | Hx]; [rewrite pretty_N_go_0; exact Hs |].
  rewrite pretty_N_go_step by lia.
  apply IH; [apply N.div_lt; lia |].
  cbn [all_chars]. rewrite Hs, andb_true_r.
  unfold pretty_N_char. repeat case_match; reflexivity.
Qed.

(** [str] of an [int]: digits with an optional sign, never empty. *)
Lemma pretty_Z_digits (z : Z) :
  all_chars is_digit_or_dash (pretty z) = true /\ pretty z <> EmptyString.
Proof.
  assert (Hne : forall x s, s <> EmptyString -> pretty_N_go x s <> EmptyString).
  { intros x. induction (N.lt_wf_0 x) as [x _ IH]. intros s Hs.
    destruct (N.eq_dec x 0%N) as [-> | Hx]; [rewrite pretty_N_go_0; exact Hs |].
    rewrite pretty_N_go_step by lia. apply IH; [apply N.div_lt; lia | discriminate]. }
  assert (Hpos : forall p : positive,
             all_chars is_digit_or_dash (pretty (N.pos p)) = true
             /\ pretty (N.pos p) <> EmptyString).
  { intros p. unfold pretty, pretty_N.
    destruct (decide (N.pos p = 0%N)); [discriminate |]. split.
    - apply pretty_N_go_digits. reflexivity.
    - rewrite pretty_N_go_step by lia. apply Hne. discriminate. }
  destruct z as [| p | p]; unfold pretty, pretty_Z.
  - split; [reflexivity | discriminate].
  - exact (Hpos p).
  - destruct (Hpos p) as [Hd _]. split; [| discriminate].
    unfold pretty, pretty_positive.
    change ("-" +:+ pretty (N.pos p)) with (String "-" (pretty (N.pos p))).
    cbn [all_chars]. rewrite Hd. reflexivity.
Qed.

End text.

(** ** More on the validation stage *)

Section entries.
Context `{Platform}.
Import serializers.

Lemma strip_blank_text (v : json) (raw : string) (f : Field) :
  trim_whitespace f = true ->
  entry_text v = Some raw ->
  is_blank f (Some v) = String.eqb (strip raw) EmptyString.
Proof.
  intros Htrim Hraw. unfold is_blank. rewrite Htrim.
  destruct v as [| b | z | x | s | l | o]; try discriminate;
    injection Hraw as <-.
  - destruct (pretty_Z_digits z) as [Hd Hne].
    rewrite strip_plain.
    + symmetry. apply String.eqb_neq. exact Hne.
    + revert Hd. apply all_chars_impl. intros c Hc.
      apply digit_or_dash_plain in Hc. unfold is_plain in Hc.
      apply andb_true_iff in Hc as [Hc _]. exact Hc.
  - reflexivity.
  - destruct (String.eqb_spec s EmptyString) as [-> | _]; reflexivity.
Qed.

(** A text entry is trimmed, refused when nothing is left, and handed to
    the validators otherwise. *)
Lemma run_validation_text (f : Field) (v : json) (raw : string) :
  trim_whitespace f = true ->
  allow_blank f = false ->
  entry_text v = Some raw ->
  run_validation f (Some v) =
    if String.eqb (strip raw) EmptyString then fail f "blank"
    else run_validators f (strip raw).
Proof.
  intros Htrim Hblank Hraw. unfold run_validation.
  rewrite (strip_blank_text v raw f Htrim Hraw), Hblank.
  destruct (String.eqb (strip raw) EmptyString); [reflexivity |].
  unfold Field_run_validation, to_internal_value. rewrite Htrim.
  destruct v; try discriminate; injection Hraw as <-; reflexivity.
Qed.

(** Anything else is refused whatever the field. *)
Lemma run_validation_not_text (f : Field) (v : json) :
  entry_text v = None ->
  run_validation f (Some v) =
    fail f (match v with JNull => "null" | _ => "invalid" end).
Proof.
  intros Hraw. destruct v; try discriminate; reflexivity.
Qed.

Lemma password_validators (value : string) :
  run_validators password value =
    if contains_nul value
    then ValidationError (ProhibitNullCharactersValidator value)
    else Ok value.
Proof.
  unfold run_validators, password, CharField, ProhibitNullCharactersValidator.
  cbn [validators map concat app].
  destruct (contains_nul value); reflexivity.
Qed.

Lemma email_validators (value : string) :
  run_validators email value =
    match (ProhibitNullCharactersValidator value
           ++ email_validator "Enter a valid email address." value)%list with
    | [] => Ok value
    | errors => ValidationError errors
    end.
Proof.
  unfold run_validators, email, EmailField.
  cbn [validators map concat]. rewrite app_nil_r. reflexivity.
Qed.

Lemma password_accepted_iff (v : option json) (value : string) :
  acceptable_password v value
  <-> exists entry raw,
        v = Some entry /\ entry_text entry = Some raw
        /\ value = strip raw /\ clean value.
Proof.
  unfold acceptable_password, clean. split.
  - destruct v as [entry |]; [| discriminate].
    destruct (entry_text entry) as [raw |] eqn:Hraw.
    + rewrite (run_validation_text password entry raw eq_refl eq_refl Hraw).
      destruct (String.eqb_spec (strip raw) EmptyString) as [_ | Hne];
        [discriminate |].
      rewrite password_validators.
      destruct (contains_nul (strip raw)) eqn:Hnul; [discriminate |].
      intros [= <-]. exists entry, raw. auto.
    + rewrite (run_validation_not_text password entry Hraw). discriminate.
  - intros (entry & raw & -> & Hraw & -> & Hne & Hnul).
    rewrite (run_validation_text password entry raw eq_refl eq_refl Hraw).
    apply String.eqb_neq in Hne. rewrite Hne, password_validators, Hnul.
    reflexivity.
Qed.

Lemma email_accepted_iff (v : option json) (value : string) :
  syntactically_valid_email v value
  <-> exists entry raw,
        v = Some entry /\ entry_text entry = Some raw
        /\ value = strip raw /\ clean value
        /\ EmailValidator value = true.
Proof.
  unfold syntactically_valid_email, clean. split.
  - destruct v as [entry |]; [| discriminate].
    destruct (entry_text entry) as [raw |] eqn:Hraw.
    + rewrite (run_validation_text email entry raw eq_refl eq_refl Hraw).
      destruct (String.eqb_spec (strip raw) EmptyString) as [_ | Hne];
        [discriminate |].
      rewrite email_validators.
      unfold ProhibitNullCharactersValidator, email_validator.
      destruct (contains_nul (strip raw)) eqn:Hnul; [discriminate |].
      destruct (EmailValidator (strip raw)) eqn:Hev; [| discriminate].
      intros [= <-]. exists entry, raw. auto 6.
    + rewrite (run_validation_not_text email entry Hraw). discriminate.
  - intros (entry & raw & -> & Hraw & -> & (Hne & Hnul) & Hev).
    rewrite (run_validation_text email entry raw eq_refl eq_refl Hraw).
    apply String.eqb_neq in Hne. rewrite Hne, email_validators.
    unfold ProhibitNullCharactersValidator, email_validator.
    rewrite Hnul, Hev. reflexivity.
Qed.

End entries.

(** ** More on [POST /login/] *)

Section more_properties.
Context `{Platform}.
Import serializers.

(** A field that refuses its entry stops the request, and its messages
    are in the body under its name. *)
Lemma refused_response (m : gmap string json) (w : World) (k : string)
    (f : Field) (d : list ErrorDetail) :
  (k = "email" /\ f = email) \/ (k = "password" /\ f = password) ->
  run_validation f (m !! k) = ValidationError d ->
  exists r,
    handle (JObj m) w = (inr r, {| world := w; calls := [] |})
    /\ status_code r = 400%Z
    /\ data r !! k = Some (Messages (map message d)).
Proof.
  intros Hk Hrun.
  assert (Hd : field_errors m !! k = Some d).
  { rewrite lookup_field_errors. unfold refusal.
    destruct Hk as [[-> ->] | [-> ->]];
      cbn [String.eqb Ascii.eqb Bool.eqb]; rewrite Hrun; reflexivity. }
  exists (bad_request (field_errors m)).
  split; [apply handle_object_refused; eapply refused_not_empty; exact Hd |].
  split; [reflexivity | apply refusal_in_body; exact Hd].
Qed.

Lemma field_errors_agree (m1 m2 : gmap string json) :
  m1 !! "email" = m2 !! "email" ->
  m1 !! "password" = m2 !! "password" ->
  field_errors m1 = field_errors m2.
Proof. intros He Hp. unfold field_errors. rewrite He, Hp. reflexivity. Qed.

(** X1.  Only the two declared entries count: bodies that agree on
    ["email"] and ["password"] are handled alike, whatever else they
    carry. *)
Theorem unknown_entries_ignored (m1 m2 : gmap string json) (w : World) :
  m1 !! "email" = m2 !! "email" ->
  m1 !! "password" = m2 !! "password" ->
  handle (JObj m1) w = handle (JObj m2) w.
Proof.
  intros He Hp. pose proof (field_errors_agree m1 m2 He Hp) as Herr.
  destruct (decide (field_errors m1 = ∅)) as [Hempty | Hne].
  - destruct (field_errors_empty m1 Hempty) as (e & p & Hve & Hvp).
    assert (H1 : passes (JObj m1) e p) by (exists m1; auto).
    assert (H2 : passes (JObj m2) e p).
    { exists m2. rewrite <- He, <- Hp. auto. }
    rewrite (handle_accepted _ w e p H1), (handle_accepted _ w e p H2).
    reflexivity.
  - rewrite (handle_object_refused m1 w Hne).
    rewrite Herr in Hne |- *. rewrite (handle_object_refused m2 w Hne).
    reflexivity.
Qed.

(** X2.  A 400 answer to a mapping lists exactly the refused fields: each
    of the two names is in the body if and only if its field refused the
    entry, with that field's messages, and no other name is. *)
Theorem refused_fields_reported (m : gmap string json) (w : World)
    (r : Response) (st : State) :
  handle (JObj m) w = (inr r, st) ->
  status_code r = 400%Z ->
  data r !! "email" =
    (fun d => Messages (map message d)) <$> refusal "email" email m
  /\ data r !! "password" =
       (fun d => Messages (map message d)) <$> refusal "password" password m
  /\ forall k, k <> "email" -> k <> "password" -> data r !! k = None.
Proof.
  intros Hr Hstatus.
  destruct (decide (field_errors m = ∅)) as [Hempty | Hne].
  - exfalso. destruct (field_errors_empty m Hempty) as (e & p & Hve & Hvp).
    assert (Hpass : passes (JObj m) e p) by (exists m; auto).
    rewrite (handle_accepted _ w e p Hpass) in Hr.
    destruct (authenticate w e p) as [w' [user |]];
      injection Hr as <- _; discriminate Hstatus.
  - rewrite (handle_object_refused m w Hne) in Hr. injection Hr as <- _.
    unfold bad_request, render_errors. cbn [data].
    rewrite !lookup_fmap, !lookup_field_errors.
    cbn [String.eqb Ascii.eqb Bool.eqb].
    split; [reflexivity |]. split; [reflexivity |].
    intros k Hke Hkp. rewrite lookup_fmap, lookup_field_errors.
    apply String.eqb_neq in Hke, Hkp. rewrite Hke, Hkp. reflexivity.
Qed.

(** X3.  A boolean, a list or a mapping under a field name is refused
    with the ["invalid"] message of that field: "Not a valid string."
    for the password, "Enter a valid email address." for the e-mail. *)
Theorem wrong_type_refused (m : gmap string json) (v : json) (w : World)
    (k : string) :
  not_text v = true ->
  m !! k = Some v ->
  k = "email" \/ k = "password" ->
  exists r,
    handle (JObj m) w = (inr r, {| world := w; calls := [] |})
    /\ status_code r = 400%Z
    /\ data r !! k =
         Some (Messages [if String.eqb k "email"
                         then "Enter a valid email address."
                         else "Not a valid string."]).
Proof.
  intros Hv Hm [-> | ->].
  - apply (refused_response m w "email" email
             [ {| message := "Enter a valid email address."; code := "invalid" |} ]);
      [left; auto |].
    rewrite Hm. destruct v; try discriminate; reflexivity.
  - apply (refused_response m w "password" password
             [ {| message := "Not a valid string."; code := "invalid" |} ]);
      [right; auto |].
    rewrite Hm. destruct v; try discriminate; reflexivity.
Qed.

(** X4.  An entry that is present but [null] is refused with "This field
    may not be null.", a message of its own, different from the one
    for a missing entry. *)
Theorem null_entry_refused (m : gmap string json) (w : World) (k : string) :
  m !! k = Some JNull ->
  k = "email" \/ k = "password" ->
  exists r,
    handle (JObj m) w = (inr r, {| world := w; calls := [] |})
    /\ status_code r = 400%Z
    /\ data r !! k = Some (Messages ["This field may not be null."]).
Proof.
  intros Hm [-> | ->].
  - apply (refused_response m w "email" email
             [ {| message := "This field may not be null."; code := "null" |} ]);
      [left; auto | rewrite Hm; reflexivity].
  - apply (refused_response m w "password" password
             [ {| message := "This field may not be null."; code := "null" |} ]);
      [right; auto | rewrite Hm; reflexivity].
Qed.


(** X6.  A body that is not a mapping is answered 400 under the key
    ["non_field_errors"], with "No data provided" for [null] and with a
    message naming the Python type of the body otherwise; nothing is
    called. *)
Theorem not_a_mapping_rejected (request_data : json) (w : World) :
  (forall m, request_data <> JObj m) ->
  handle request_data w =
    (inr {| data :=
              {[ "non_field_errors" :=
                   Messages [match request_data with
                             | JNull => "No data provided"
                             | _ => "Invalid data. Expected a dictionary, but got "
                                      ++ type_name request_data ++ "."
                             end] ]};
            status_code := 400 |},
     {| world := w; calls := [] |}).
Proof.
  intros Hno.
  destruct request_data; try (exfalso; eapply Hno; reflexivity);
    vm_compute; reflexivity.
Qed.

(** X7.  The status tells what the handler did: 400 goes with no call at
    all, 401 with one call of [authenticate] and nothing else, 200 with
    one call of [authenticate] followed by one call of [login]. *)
Theorem status_matches_calls (request_data : json) (w : World) :
  exists r st,
    handle request_data w = (inr r, st)
    /\ ((status_code r = 400%Z /\ calls st = [])
        \/ (status_code r = 401%Z
            /\ exists e p, calls st = [CallAuthenticate e p])
        \/ (status_code r = 200%Z
            /\ exists e p user,
                 calls st = [CallAuthenticate e p; CallLogin user])).
Proof.
  destruct (is_valid (instantiate LoginSerializer request_data)) eqn:Hv.
  - apply passes_is_valid in Hv as (e & p & Hp).
    rewrite (handle_accepted _ w e p Hp).
    destruct (authenticate w e p) as [w' [user |]]; do 2 eexists;
      (split; [reflexivity |]).
    + right; right. split; [reflexivity |]. exists e, p, user. reflexivity.
    + right; left. split; [reflexivity |]. exists e, p. reflexivity.
  - destruct (handle_invalid _ w Hv) as (errs & _ & ->).
    do 2 eexists. split; [reflexivity |]. left. split; reflexivity.
Qed.

Lemma clean_strip (raw : string) : strip (strip raw) = strip raw.
Proof. apply strip_idempotent. Qed.

Lemma passes_clean (request_data : json) (e p : string) :
  passes request_data e p ->
  clean e /\ strip e = e /\ EmailValidator e = true
  /\ clean p /\ strip p = p.
Proof.
  intros (m & _ & He & Hp).
  apply email_accepted_iff in He as (? & raw_e & _ & _ & -> & Hce & Hev).
  apply password_accepted_iff in Hp as (? & raw_p & _ & _ & -> & Hcp).
  rewrite !clean_strip. auto.
Qed.

(** X8.  Whatever the request, [authenticate] only ever sees cleaned
    credentials: both are non-empty, carry no NUL character and no
    leading or trailing whitespace, and the username has passed the
    e-mail syntax check. *)
Theorem authenticate_arguments_clean (request_data : json) (w : World)
    (e p : string) :
  CallAuthenticate e p ∈ calls (snd (handle request_data w)) ->
  e <> EmptyString /\ p <> EmptyString
  /\ strip e = e /\ strip p = p
  /\ contains_nul e = false /\ contains_nul p = false
  /\ EmailValidator e = true.
Proof.
  destruct (is_valid (instantiate LoginSerializer request_data)) eqn:Hv.
  - apply passes_is_valid in Hv as (e' & p' & Hp).
    rewrite (handle_accepted _ w e' p' Hp).
    destruct (passes_clean _ _ _ Hp) as ([? ?] & ? & ? & [? ?] & ?).
    destruct (authenticate w e' p') as [w' [user |]]; cbn [snd calls];
      intros Hin.
    + apply elem_of_cons in Hin as [[= -> ->] | Hin]; [auto 10 |].
      apply list_elem_of_singleton in Hin. discriminate.
    + apply list_elem_of_singleton in Hin as [= -> ->]. auto 10.
  - destruct (handle_invalid _ w Hv) as (errs & _ & ->). cbn [snd calls].
    intros Hin. apply elem_of_nil in Hin. contradiction.
Qed.

(** X9.  A password sent as a JSON integer is not refused for its type:
    with an accepted e-mail, [authenticate] is called with the decimal
    text of the number. *)
Theorem integer_password_as_text (m : gmap string json) (e : string)
    (z : Z) (w : World) :
  syntactically_valid_email (m !! "email") e ->
  m !! "password" = Some (JInt z) ->
  exists rest,
    calls (snd (handle (JObj m) w)) = CallAuthenticate e (pretty z) :: rest.
Proof.
  intros He Hm.
  destruct (pretty_Z_digits z) as [Hd Hne].
  assert (Hplain : all_chars is_plain (pretty z) = true).
  { revert Hd. apply all_chars_impl, digit_or_dash_plain. }
  assert (Hstrip : strip (pretty z) = pretty z).
  { apply strip_plain. revert Hplain. apply all_chars_impl.
    unfold is_plain. intros c Hc. apply andb_true_iff in Hc as [Hc _]. exact Hc. }
  assert (Hp : acceptable_password (m !! "password") (pretty z)).
  { apply password_accepted_iff. exists (JInt z), (pretty z).
    rewrite Hstrip. repeat split; auto. apply plain_no_nul. exact Hplain. }
  assert (Hpass : passes (JObj m) e (pretty z)) by (exists m; auto).
  rewrite (handle_accepted _ w e (pretty z) Hpass).
  destruct (authenticate w e (pretty z)) as [w' [user |]]; eexists; reflexivity.
Qed.

(** X10.  Validation is idempotent: the cleaned credentials of an
    accepted request, sent back as they are, are accepted unchanged and
    get the same answer. *)
Theorem cleaned_values_round_trip (request_data : json) (e p : string)
    (w : World) :
  passes request_data e p ->
  passes (JObj {[ "email" := JStr e; "password" := JStr p ]}) e p
  /\ handle (JObj {[ "email" := JStr e; "password" := JStr p ]}) w
     = handle request_data w.
Proof.
  intros Hp.
  destruct (passes_clean _ _ _ Hp) as (Hce & Hse & Hev & Hcp & Hsp).
  assert (Hagain : passes (JObj {[ "email" := JStr e; "password" := JStr p ]}) e p).
  { eexists. split; [reflexivity |]. split.
    - apply email_accepted_iff. exists (JStr e), e.
      split; [| rewrite Hse; auto]. apply lookup_insert_eq.
    - apply password_accepted_iff. exists (JStr p), p.
      split; [| rewrite Hsp; auto].
      rewrite lookup_insert_ne by discriminate. apply lookup_singleton_eq. }
  split; [exact Hagain |].
  rewrite (handle_accepted _ w e p Hagain), (handle_accepted _ w e p Hp).
  reflexivity.
Qed.

(** X11.  What [is_valid()] leaves behind: on success [validated_data]
    holds exactly the two cleaned values that [validate] was given and
    [errors] is empty; on failure [validated_data] is empty and [errors]
    is a non-empty dict. *)
Theorem serializer_state_after_is_valid (request_data : json) :
  let serializer := instantiate LoginSerializer request_data in
  (is_valid serializer = true ->
   exists e p,
     passes request_data e p
     /\ validated_data serializer = {[ "email" := e; "password" := p ]}
     /\ errors serializer = Some ∅)
  /\ (is_valid serializer = false ->
      validated_data serializer = ∅
      /\ exists errs, errors serializer = Some errs /\ errs <> ∅).
Proof.
  cbn zeta. split.
  - intros Hv. apply passes_is_valid in Hv as (e & p & Hp).
    exists e, p. split; [exact Hp |].
    destruct Hp as (m & -> & He & Hpw).
    rewrite (instantiate_accepted m e p He Hpw).
    split; [| reflexivity].
    unfold validated_data. cbn [_validated_data].
    rewrite insert_insert_ne by discriminate. rewrite insert_empty. reflexivity.
  - intros Hv.
    destruct (validation_cases request_data) as [Hp | [(errs & Hne & He) | ->]].
    + apply passes_is_valid in Hp. congruence.
    + destruct request_data as [| b | z | x | s | l | m];
        try (split; [reflexivity |]; eexists; split; [reflexivity |];
             apply insert_non_empty).
      destruct (decide (field_errors m = ∅)) as [Hempty | Hne'].
      * exfalso. destruct (field_errors_empty m Hempty) as (e & p & Hve & Hvp).
        rewrite (instantiate_accepted m e p Hve Hvp) in Hv. discriminate.
      * rewrite (instantiate_refused m Hne').
        split; [reflexivity |]. exists (field_errors m). split; [reflexivity | exact Hne'].
    + split; [reflexivity |]. eexists. split; [reflexivity |].
      apply insert_non_empty.
Qed.


End more_properties.

(** ** The further properties on the small platform *)

Section more_examples.
Import serializers Demo Samples.

Lemma unknown_entries_ignored_witness :
  handle (JObj padded) w0 = handle (JObj remembered) w0.
Proof.
  apply (unknown_entries_ignored padded remembered w0); vm_compute; reflexivity.
Defined.

Lemma refused_fields_reported_witness :
  data blank_refusal !! "email" =
    (fun d => Messages (map message d)) <$> refusal "email" email spaces_only
  /\ data blank_refusal !! "password" =
       (fun d => Messages (map message d)) <$> refusal "password" password spaces_only
  /\ forall k, k <> "email" -> k <> "password" -> data blank_refusal !! k = None.
Proof.
  apply (refused_fields_reported spaces_only w0 blank_refusal
           {| world := w0; calls := [] |});
    vm_compute; reflexivity.
Defined.

Lemma wrong_type_refused_witness :
  (exists r,
      handle (JObj wrong_types) w0 = (inr r, {| world := w0; calls := [] |})
      /\ status_code r = 400%Z
      /\ data r !! "email" = Some (Messages ["Enter a valid email address."]))
  /\ (exists r,
        handle (JObj wrong_types) w0 = (inr r, {| world := w0; calls := [] |})
        /\ status_code r = 400%Z
        /\ data r !! "password" = Some (Messages ["Not a valid string."])).
Proof.
  split.
  - apply (wrong_type_refused wrong_types (JList []) w0 "email");
      [reflexivity | vm_compute; reflexivity | left; reflexivity].
  - apply (wrong_type_refused wrong_types (JBool true) w0 "password");
      [reflexivity | vm_compute; reflexivity | right; reflexivity].
Defined.

Lemma null_entry_refused_witness :
  exists r,
    handle (JObj null_email) w0 = (inr r, {| world := w0; calls := [] |})
    /\ status_code r = 400%Z
    /\ data r !! "email" = Some (Messages ["This field may not be null."]).
Proof.
  apply (null_entry_refused null_email w0 "email");
    [vm_compute; reflexivity | left; reflexivity].
Defined.


Lemma not_a_mapping_rejected_witness :
  handle (JList []) w0 =
    (inr {| data :=
              {[ "non_field_errors" :=
                   Messages ["Invalid data. Expected a dictionary, but got list."] ]};
            status_code := 400 |},
     {| world := w0; calls := [] |}).
Proof.
  apply (not_a_mapping_rejected (JList []) w0). intros m. discriminate.
Defined.

Lemma authenticate_arguments_clean_witness :
  "ann@example.org" <> EmptyString /\ "s3cret" <> EmptyString
  /\ strip "ann@example.org" = "ann@example.org" /\ strip "s3cret" = "s3cret"
  /\ contains_nul "ann@example.org" = false /\ contains_nul "s3cret" = false
  /\ EmailValidator "ann@example.org" = true.
Proof.
  apply (authenticate_arguments_clean ann w0 "ann@example.org" "s3cret").
  vm_compute. apply list_elem_of_here.
Defined.

Lemma integer_password_as_text_witness :
  exists rest,
    calls (snd (handle (JObj numeric_password) w0)) =
      CallAuthenticate "ann@example.org" "12345" :: rest.
Proof.
  apply (integer_password_as_text numeric_password "ann@example.org" 12345 w0);
    vm_compute; reflexivity.
Defined.

Lemma cleaned_values_round_trip_witness :
  passes (JObj {[ "email" := JStr "ann@example.org"; "password" := JStr "s3cret" ]})
    "ann@example.org" "s3cret"
  /\ handle (JObj {[ "email" := JStr "ann@example.org"; "password" := JStr "s3cret" ]}) w0
     = handle ann w0.
Proof.
  apply (cleaned_values_round_trip ann "ann@example.org" "s3cret" w0).
  eexists. split; [reflexivity |]. split; vm_compute; reflexivity.
Defined.

Lemma serializer_state_after_is_valid_witness :
  (exists e p,
      passes ann e p
      /\ validated_data (instantiate LoginSerializer ann) =
           {[ "email" := e; "password" := p ]}
      /\ errors (instantiate LoginSerializer ann) = Some ∅)
  /\ validated_data (instantiate LoginSerializer (JObj spaces_only)) = ∅.
Proof.
  split.
  - apply (proj1 (serializer_state_after_is_valid ann)). vm_compute. reflexivity.
  - apply (proj2 (serializer_state_after_is_valid (JObj spaces_only))).
    vm_compute. reflexivity.
Defined.

End more_examples.
